(** * CSV ingestion of the data chatbot: a shallow embedding

    The repository has two loaders, [streamlit_app.py] (the running
    application) and [data.py] (an earlier, unguarded variant).  Both scan a
    folder, parse each CSV file with pandas and concatenate the frames.

    The Python code is embedded as functions in a small effect monad: a
    computation yields the list of events it emitted (Streamlit messages,
    Python warnings, calls of the query engine) and either a value or a raised
    exception.  The file system is a read-only parameter.  The library calls
    the loaders make ([Path.is_dir], [Path.glob], [Path.iterdir],
    [pd.read_csv], [pd.concat], [st.cache_data]) are modelled in their own
    modules, at the level of their documented behaviour. *)

From stdpp Require Import base list strings gmap pretty.
From Stdlib Require Import Ascii.

Local Open Scope string_scope.
Local Open Scope list_scope.
Local Open Scope nat_scope.

(** ** Python exceptions and the effect monad *)

Inductive exn : Type :=
| FileNotFoundError (path : string)
| NotADirectoryError (path : string)
| IsADirectoryError (path : string)
| UnicodeDecodeError (cause : string)
| EmptyDataError
| ParserError (expected saw : nat)
| ValueError (msg : string)
| StopException.

(** [str(e)], as interpolated by the f-strings of the loader. *)
Definition exn_str (e : exn) : string :=
  match e with
  | FileNotFoundError p => "[Errno 2] No such file or directory: '" +:+ p +:+ "'"
  | NotADirectoryError p => "[Errno 20] Not a directory: '" +:+ p +:+ "'"
  | IsADirectoryError p => "[Errno 21] Is a directory: '" +:+ p +:+ "'"
  | UnicodeDecodeError c => c
  | EmptyDataError => "No columns to parse from file"
  | ParserError k n =>
      "Expected " +:+ pretty k +:+ " fields, saw " +:+ pretty n
  | ValueError m => m
  | StopException => EmptyString
  end.

Inductive outcome (A : Type) : Type :=
| Ok (a : A)
| Raised (e : exn).
Arguments Ok {A} a.
Arguments Raised {A} e.

Section Effects.
(** The events are fixed further down; the monad is generic in them. *)
Context {E : Type}.

Definition Eff (A : Type) : Type := list E * outcome A.

Definition ret {A} (a : A) : Eff A := ([], Ok a).
Definition raise {A} (e : exn) : Eff A := ([], Raised e).
Definition emit (ev : E) : Eff unit := ([ev], Ok tt).

Definition bind {A B} (m : Eff A) (k : A → Eff B) : Eff B :=
  match m with
  | (out, Ok a) => let '(out', r) := k a in (out ++ out', r)
  | (out, Raised e) => (out, Raised e)
  end.

(** [try: m except e: h e] *)
Definition try_except {A} (m : Eff A) (h : exn → Eff A) : Eff A :=
  match m with
  | (out, Raised e) => let '(out', r) := h e in (out ++ out', r)
  | done => done
  end.

Definition events {A} (m : Eff A) : list E := fst m.
Definition result {A} (m : Eff A) : outcome A := snd m.
End Effects.
Arguments Eff : clear implicits.

Declare Scope eff_scope.
Delimit Scope eff_scope with eff.
Notation "x <- m ;; k" := (bind m (fun x => k))
  (at level 100, m at next level, right associativity) : eff_scope.
Notation "m ;; k" := (bind m (fun _ => k))
  (at level 100, right associativity) : eff_scope.
Local Open Scope eff_scope.

(** ** The file system

    A finite map from path strings to nodes.  A directory lists the names of
    its immediate children in the order the operating system yields them (the
    discovery order); a listed name whose path is unmapped is a dangling
    entry, the way a broken symbolic link is. *)

Inductive node : Type :=
| Dir (listing : list string)
| File (lines : list string)
| Garbled (cause : string).

Abbreviation FileSystem := (gmap string node).

(** ** [pathlib] *)

Module Pathlib.

Record Path : Type := { parent : string; name : string }.

(** [str(p)] for a child of a folder: the folder as written, a slash, the
    name.  (The folder is not brought to the normal form in which pathlib
    prints it, [data] for [./data]; the file system below is keyed alike.) *)
Definition path_str (p : Path) : string := parent p +:+ "/" +:+ name p.

(** [folder / child] *)
Definition joinpath (folder child : string) : Path :=
  {| parent := folder; name := child |}.

Definition is_dir (fs : FileSystem) (folder : string) : bool :=
  match fs !! folder with
  | Some (Dir _) => true
  | _ => false
  end.

(** Shell-style matching of one name, as [Path.glob] does for a pattern
    without separators: [*] is any run of characters (a leading dot
    included), [?] is any one character; bracket classes, which the pattern
    of the loader does not use, are left out. *)
Fixpoint fnmatch (pat s : string) : bool :=
  match pat with
  | EmptyString => match s with EmptyString => true | String _ _ => false end
  | String c pat' =>
      if Ascii.eqb c "*" then
        (fix star (s : string) : bool :=
           fnmatch pat' s ||
           match s with
           | EmptyString => false
           | String _ s' => star s'
           end) s
      else
        match s with
        | EmptyString => false
        | String d s' =>
            (Ascii.eqb c "?" || Ascii.eqb c d) && fnmatch pat' s'
        end
  end.

(** [list(folder_path.glob(pattern))]; the caller has checked [is_dir]. *)
Definition glob (fs : FileSystem) (folder pattern : string) : list Path :=
  match fs !! folder with
  | Some (Dir listing) =>
      map (joinpath folder) (List.filter (fnmatch pattern) listing)
  | _ => []
  end.

(** [Path(folder).iterdir()], consumed in full. *)
Definition iterdir {E} (fs : FileSystem) (folder : string) : Eff E (list Path) :=
  match fs !! folder with
  | Some (Dir listing) => ret (map (joinpath folder) listing)
  | Some _ => raise (NotADirectoryError folder)
  | None => raise (FileNotFoundError folder)
  end.

(** Index of the last dot: [name.rfind('.')]. *)
Fixpoint rfind_dot (s : string) : option nat :=
  match s with
  | EmptyString => None
  | String c s' =>
      match rfind_dot s' with
      | Some i => Some (S i)
      | None => if Ascii.eqb c "." then Some 0 else None
      end
  end.

(** [p.suffix]: the last dot and what follows it, unless that dot opens or
    closes the name. *)
Definition suffix (p : Path) : string :=
  let n := name p in
  match rfind_dot n with
  | Some i =>
      if ((0 <? i) && (i <? String.length n - 1))%nat
      then String.substring i (String.length n - i) n
      else EmptyString
  | None => EmptyString
  end.

End Pathlib.
Import Pathlib.

(** ** [pandas] *)

Module Pandas.

(** A cell holds the text of its field; [None] is the missing value (NaN)
    that padding and column alignment put in. *)
Definition cell : Type := option string.

Record DataFrame : Type := {
  columns : list string;
  index : list nat;
  data : list (list cell)
}.

(** [pd.DataFrame()] *)
Definition DataFrame_new : DataFrame :=
  {| columns := []; index := []; data := [] |}.

(** [df.empty]: some axis has length 0. *)
Definition empty (df : DataFrame) : bool :=
  ((length (columns df) =? 0) || (length (index df) =? 0))%nat.

(** [df.shape[0]] *)
Definition shape0 (df : DataFrame) : nat := length (index df).

End Pandas.
Import Pandas.

(** ** Events: what the user, the interpreter and the query engine see *)

Inductive event : Type :=
| StError (msg : string)
| StWarning (msg : string)
| StSuccess (msg : string)
| StInfo (msg : string)
| StException (e : exn)
| StMarkdown (text : string)
| StWidget (what : string)
| StDataframe (df : DataFrame)
| ParserWarning (expected saw : nat)
| EngineChat (df : DataFrame) (query : string).

Abbreviation Py := (Eff event).

(** ** [streamlit] messages *)

Module st.
Definition error (msg : string) : Py unit := emit (StError msg).
Definition warning (msg : string) : Py unit := emit (StWarning msg).
Definition success (msg : string) : Py unit := emit (StSuccess msg).
Definition info (msg : string) : Py unit := emit (StInfo msg).
Definition exception (e : exn) : Py unit := emit (StException e).
Definition markdown (text : string) : Py unit := emit (StMarkdown text).
(** Layout elements that carry no message: title, image, expander, ... *)
Definition widget (what : string) : Py unit := emit (StWidget what).
Definition dataframe (df : DataFrame) : Py unit := emit (StDataframe df).
(** [st.stop()] ends the script run by raising. *)
Definition stop : Py unit := raise StopException.
End st.

(** ** [pd.read_csv] and [pd.concat]

    The reader is modelled on text that is already cut into lines, for the
    options the loaders pass: the field delimiter, the policy for lines with
    too many fields, the header in the first line that is not blank, blank
    lines skipped, short lines padded with the missing value.  Quoting and
    type inference are outside the model, and so is the inference of index
    columns: the reader is described on files whose first data line has no
    more fields than the header, where the expected number of fields is the
    number of column names.  Both parser engines agree on what is inside the
    model. *)

Module pd.

Inductive bad_line_policy : Type := on_error | on_warn | on_skip.
Inductive parser_engine : Type := engine_c | engine_python.

Definition is_space (c : ascii) : bool :=
  Ascii.eqb c " " || Ascii.eqb c "009" || Ascii.eqb c "010"
  || Ascii.eqb c "011" || Ascii.eqb c "012" || Ascii.eqb c "013".

Fixpoint is_blank (line : string) : bool :=
  match line with
  | EmptyString => true
  | String c rest => is_space c && is_blank rest
  end.

(** Cut one line at every occurrence of the delimiter. *)
Fixpoint split_fields (delimiter : ascii) (line : string) : list string :=
  match line with
  | EmptyString => [EmptyString]
  | String c rest =>
      if Ascii.eqb c delimiter then EmptyString :: split_fields delimiter rest
      else
        match split_fields delimiter rest with
        | field :: fields => String c field :: fields
        | [] => [String c EmptyString]
        end
  end.

(** A row of the frame: the fields, then NaN up to the header's width. *)
Definition pad (width : nat) (fields : list string) : list cell :=
  map Some fields ++ replicate (width - length fields) None.

(** The data lines in order.  A line with more fields than the header is
    a bad line: fatal, warned about and skipped, or skipped in silence. *)
Fixpoint read_rows (policy : bad_line_policy) (width : nat)
    (lines : list (list string)) : Py (list (list cell)) :=
  match lines with
  | [] => ret []
  | fields :: rest =>
      if (width <? length fields)%nat then
        match policy with
        | on_error => raise (ParserError width (length fields))
        | on_warn =>
            emit (ParserWarning width (length fields)) ;;
            read_rows policy width rest
        | on_skip => read_rows policy width rest
        end
      else
        rows <- read_rows policy width rest ;;
        ret (pad width fields :: rows)
  end.

Definition read_csv (fs : FileSystem) (path : Path) (delimiter : ascii)
    (on_bad_lines : bad_line_policy) (engine : parser_engine)
    : Py DataFrame :=
  match fs !! path_str path with
  | None => raise (FileNotFoundError (path_str path))
  | Some (Dir _) => raise (IsADirectoryError (path_str path))
  | Some (Garbled cause) => raise (UnicodeDecodeError cause)
  | Some (File lines) =>
      match List.filter (fun l => negb (is_blank l)) lines with
      | [] => raise EmptyDataError
      | header :: body =>
          let names := split_fields delimiter header in
          rows <- read_rows on_bad_lines (length names)
                    (map (split_fields delimiter) body) ;;
          ret {| columns := names;
                 index := seq 0 (length rows);
                 data := rows |}
      end
  end.

(** Column labels of the result: the union, in order of first appearance. *)
Fixpoint union_names (seen names : list string) : list string :=
  match names with
  | [] => seen
  | n :: rest =>
      if bool_decide (n ∈ seen) then union_names seen rest
      else union_names (seen ++ [n]) rest
  end.

Definition union_columns (objs : list DataFrame) : list string :=
  foldl (fun seen df => union_names seen (columns df)) [] objs.

(** The value of one row under a column label; NaN when the frame the row
    comes from has no such column. *)
Fixpoint lookup_col (label : string) (cols : list string) (row : list cell)
    : cell :=
  match cols, row with
  | c :: cols', v :: row' =>
      if String.eqb label c then v else lookup_col label cols' row'
  | _, _ => None
  end.

Definition align (target cols : list string) (row : list cell) : list cell :=
  map (fun label => lookup_col label cols row) target.

(** [pd.concat(objs, ignore_index=...)] along the rows. *)
Definition concat (objs : list DataFrame) (ignore_index : bool)
    : Py DataFrame :=
  match objs with
  | [] => raise (ValueError "No objects to concatenate")
  | _ :: _ =>
      let cols := union_columns objs in
      let rows :=
        List.flat_map (fun df => map (align cols (columns df)) (data df)) objs in
      ret {| columns := cols;
             index := if ignore_index then seq 0 (length rows)
                      else List.flat_map index objs;
             data := rows |}
  end.

End pd.

(** [except Exception] does not catch the script-control exception that
    [st.stop()] raises. *)
Definition is_Exception (e : exn) : bool :=
  match e with
  | StopException => false
  | _ => true
  end.

(** [[f(x) for x in xs]] *)
Fixpoint comprehension {A B} (f : A → Py B) (xs : list A) : Py (list B) :=
  match xs with
  | [] => ret []
  | x :: rest =>
      y <- f x ;;
      ys <- comprehension f rest ;;
      ret (y :: ys)
  end.

(** ** [st.cache_data]

    The decorator memoises a function on its argument for the session.  On a
    miss the function runs and, if it returns, the value is stored together
    with the Streamlit messages it emitted; on a hit the stored messages are
    replayed and the stored value is returned without running the function.
    Nothing invalidates an entry. *)

Definition is_st (ev : event) : bool :=
  match ev with
  | ParserWarning _ _ | EngineChat _ _ => false
  | _ => true
  end.

Abbreviation Cache := (gmap string (DataFrame * list event)).

Definition cache_data (f : string → Py DataFrame) (arg : string)
    (cache : Cache) : Py DataFrame * Cache :=
  match cache !! arg with
  | Some (df, replay) => ((replay, Ok df), cache)
  | None =>
      match f arg with
      | (out, Ok df) =>
          ((out, Ok df), <[arg := (df, List.filter is_st out)]> cache)
      | (out, Raised e) => ((out, Raised e), cache)
      end
  end.

(** ** [data.py] *)

Module Data.
Section Loader.
Variable fs : FileSystem.

Definition load_file (path : Path) : Py DataFrame :=
  pd.read_csv fs path "," pd.on_error pd.engine_c.

Definition load_data (folder : string) : Py DataFrame :=
  children <- iterdir fs folder ;;
  all_datasets <-
    comprehension load_file
      (List.filter (fun file => String.eqb (suffix file) ".csv") children) ;;
  df <- pd.concat all_datasets true ;;
  ret df.

Definition load_data_cached : string → Cache → Py DataFrame * Cache :=
  cache_data load_data.
End Loader.
End Data.

(** ** [streamlit_app.py] *)

Module StreamlitApp.

Definition BANNER_IMAGE_PATH : string :=
  "/home/jvcl/Downloads/streamlit-pandasai-main/assets/banner_cin_motorola.png".
Definition DATA_FOLDER : string := "./data".

Section Loader.
Variable fs : FileSystem.

Definition load_file (path : Path) : Py DataFrame :=
  let file_name := name path in
  try_except
    (df <- pd.read_csv fs path ";" pd.on_warn pd.engine_python ;;
     ret df)
    (fun e =>
       match e with
       | FileNotFoundError _ =>
           st.error ("Error: The file " +:+ path_str path +:+ " was not found.") ;;
           ret DataFrame_new
       | EmptyDataError =>
           st.warning ("Warning: The file " +:+ file_name
                       +:+ " is empty or contains no data rows.") ;;
           ret DataFrame_new
       | _ =>
           if is_Exception e then
             st.error ("Error loading file " +:+ file_name +:+ ": " +:+ exn_str e) ;;
             ret DataFrame_new
           else raise e
       end).

(** The [for file_path in csv_files] loop, threading [all_datasets]. *)
Fixpoint load_each (csv_files : list Path) (all_datasets : list DataFrame)
    : Py (list DataFrame) :=
  match csv_files with
  | [] => ret all_datasets
  | file_path :: rest =>
      df_file <- load_file file_path ;;
      if negb (empty df_file)
      then load_each rest (all_datasets ++ [df_file])
      else load_each rest all_datasets
  end.

Definition load_data (folder : string) : Py DataFrame :=
  let all_datasets := [] in
  let folder_path := folder in
  if negb (is_dir fs folder_path) then
    st.error ("Error: The folder " +:+ folder +:+ " was not found.") ;;
    ret DataFrame_new
  else
    let csv_files := glob fs folder_path "*.csv" in
    if bool_decide (csv_files = []) then
      st.warning ("No CSV files found in the folder: " +:+ folder) ;;
      ret DataFrame_new
    else
      all_datasets <- load_each csv_files all_datasets ;;
      if bool_decide (all_datasets = []) then
        st.warning "No data could be loaded from the CSV files, or all files were empty/problematic." ;;
        ret DataFrame_new
      else
        try_except
          (df <- pd.concat all_datasets true ;;
           st.success ("All data successfully loaded and combined. Total rows: "
                       +:+ pretty (shape0 df)) ;;
           ret df)
          (fun e =>
             if is_Exception e then
               st.error ("Error concatenating dataframes: " +:+ exn_str e) ;;
               ret DataFrame_new
             else raise e).

Definition load_data_cached : string → Cache → Py DataFrame * Cache :=
  cache_data load_data.
End Loader.

(** What the query engine hands back to the script. *)
Inductive answer : Type :=
| AnswerText (text : string)
| AnswerFrame (df : DataFrame)
| AnswerDict (type : string)
| AnswerNone.

Section Script.
Variable fs : FileSystem.
(** The external query engine: [SmartDataframe(df, config).chat(query)]. *)
Variable chat : DataFrame → string → Py answer.

(** [df.tail(n)] *)
Definition tail (n : nat) (df : DataFrame) : DataFrame :=
  {| columns := columns df;
     index := drop (length (index df) - n) (index df);
     data := drop (length (data df) - n) (data df) |}.

Definition truthy (s : string) : bool :=
  match s with
  | EmptyString => false
  | String _ _ => true
  end.

(** One run of the script, top to bottom, in a session with the given
    cache; [query] is what the text area holds and [openai_api_key] what
    the secrets hold. *)
Definition run (query : string) (openai_api_key : option string)
    (cache : Cache) : Py unit * Cache :=
  let '(loaded, cache') := load_data_cached fs DATA_FOLDER cache in
  (st.widget "set_page_config" ;;
   st.widget "markdown" ;;
   (if bool_decide (is_Some (fs !! BANNER_IMAGE_PATH))
    then st.widget "image"
    else st.warning ("Banner image not found at " +:+ BANNER_IMAGE_PATH
                     +:+ ". Please check the path.")) ;;
   st.widget "title" ;;
   st.widget "markdown" ;;
   st.widget "markdown" ;;
   df <- loaded ;;
   (if empty df then
      st.error "No data loaded. Please ensure CSV files are present in the './data' folder and are valid." ;;
      st.stop
    else ret tt) ;;
   st.widget "expander" ;;
   st.widget "write" ;;
   st.dataframe (tail 3 df) ;;
   st.widget "subheader" ;;
   st.widget "text_area" ;;
   (if truthy query then
      match openai_api_key with
      | Some key =>
          if truthy key then
            try_except
              (emit (EngineChat df query) ;;
               answer <- chat df query ;;
               match answer with
               | AnswerText text => st.markdown text
               | AnswerNone =>
                   st.info "I received your query, but I don't have a specific output to show for it right now. Try rephrasing or asking something else!"
               | _ => ret tt
               end)
              (fun e =>
                 if is_Exception e then
                   st.error ("An error occurred while processing your query: "
                             +:+ exn_str e) ;;
                   st.exception e
                 else raise e)
          else st.error "OpenAI API key not found. Please set it in your Streamlit secrets."
      | None => st.error "OpenAI API key not found. Please set it in your Streamlit secrets."
      end
    else st.info "Please type your question in the text area above to interact with the data.") ;;
   st.widget "markdown" ;;
   st.widget "caption",
   cache').
End Script.
End StreamlitApp.

(** ** Vocabulary of the specification

    What the specification calls the header, the data rows and the malformed
    lines of a file, stated on the text of the file. *)

Section Vocabulary.
Variable delimiter : ascii.

Definition nonblank (lines : list string) : list string :=
  List.filter (fun l => negb (pd.is_blank l)) lines.

Definition header_of (lines : list string) : option (list string) :=
  match nonblank lines with
  | [] => None
  | header :: _ => Some (pd.split_fields delimiter header)
  end.

Definition data_lines (lines : list string) : list (list string) :=
  match nonblank lines with
  | [] => []
  | _ :: body => map (pd.split_fields delimiter) body
  end.

(** Structurally malformed: more fields than the header has names. *)
Definition malformed (width : nat) (fields : list string) : bool :=
  (width <? length fields)%nat.

(** The rows a file holds once its malformed lines are dropped. *)
Definition kept_rows (lines : list string) : list (list cell) :=
  match header_of lines with
  | None => []
  | Some header =>
      map (pd.pad (length header))
        (List.filter (fun f => negb (malformed (length header) f))
           (data_lines lines))
  end.

(** The data rows of a file, field by field. *)
Definition data_rows (lines : list string) : list (list cell) :=
  map (map Some) (data_lines lines).

(** A well-formed file with the given columns: a header with these names,
    and as many fields in every data line. *)
Definition well_formed (header : list string) (lines : list string) : Prop :=
  header_of lines = Some header ∧
  Forall (fun f => length f = length header) (data_lines lines).
End Vocabulary.

Definition file_lines (fs : FileSystem) (p : Path) : list string :=
  match fs !! path_str p with
  | Some (File lines) => lines
  | _ => []
  end.

(** The name ends in the CSV extension. *)
Definition csv_suffixed (child : string) : Prop :=
  ∃ stem, child = stem +:+ ".csv".

(** The message carries the given file or folder name. *)
Fixpoint is_prefix (s t : string) : bool :=
  match s, t with
  | EmptyString, _ => true
  | String a s', String b t' => Ascii.eqb a b && is_prefix s' t'
  | String _ _, EmptyString => false
  end.

Fixpoint occurs_in (s t : string) : bool :=
  is_prefix s t ||
  match t with
  | EmptyString => false
  | String _ t' => occurs_in s t'
  end.

Definition names_file (ev : event) (file : string) : bool :=
  match ev with
  | StError msg | StWarning msg | StSuccess msg | StInfo msg => occurs_in file msg
  | _ => false
  end.

Definition is_engine_call (ev : event) : bool :=
  match ev with
  | EngineChat _ _ => true
  | _ => false
  end.

(** A pattern without wildcards. *)
Fixpoint literal (pat : string) : bool :=
  match pat with
  | EmptyString => true
  | String c pat' =>
      negb (Ascii.eqb c "*") && negb (Ascii.eqb c "?") && literal pat'
  end.

(** Every row is as wide as the frame has columns. *)
Definition rectangular (df : DataFrame) : Prop :=
  Forall (fun row => length row = length (columns df)) (data df).

(** The frame the reader builds from the text of a file. *)
Definition parsed (d : ascii) (lines : list string) : DataFrame :=
  match header_of d lines with
  | Some header =>
      {| columns := header;
         index := seq 0 (length (kept_rows d lines));
         data := kept_rows d lines |}
  | None => DataFrame_new
  end.

(** What a file contributes to the load, and what is reported about it. *)
Definition contribution (fs : FileSystem) (p : Path) : DataFrame :=
  parsed ";" (file_lines fs p).

Definition file_report (fs : FileSystem) (p : Path) : list event :=
  match fs !! path_str p with
  | None =>
      [StError ("Error: The file " +:+ path_str p +:+ " was not found.")]
  | Some (Dir _) =>
      [StError ("Error loading file " +:+ name p +:+ ": "
                +:+ exn_str (IsADirectoryError (path_str p)))]
  | Some (Garbled cause) =>
      [StError ("Error loading file " +:+ name p +:+ ": " +:+ cause)]
  | Some (File lines) =>
      match header_of ";" lines with
      | None =>
          [StWarning ("Warning: The file " +:+ name p
                      +:+ " is empty or contains no data rows.")]
      | Some header =>
          map (fun f => ParserWarning (length header) (length f))
            (List.filter (malformed (length header)) (data_lines ";" lines))
      end
  end.

(** The files of the scan, in discovery order, and the frames that pass the
    [df_file.empty] test. *)
Definition discovered (fs : FileSystem) (folder : string) : list Path :=
  glob fs folder "*.csv".

Definition contributions (fs : FileSystem) (folder : string) : list DataFrame :=
  List.filter (fun df => negb (empty df))
    (map (contribution fs) (discovered fs folder)).

Definition no_usable_data : event :=
  StWarning "No data could be loaded from the CSV files, or all files were empty/problematic.".

(** Stored replays hold Streamlit messages only. *)
Definition st_only (cache : Cache) : Prop :=
  map_Forall (fun _ entry => Forall (fun ev => is_st ev = true) (snd entry)) cache.

(** What the page shows before the data is loaded. *)
Definition preamble (fs : FileSystem) : list event :=
  [StWidget "set_page_config"; StWidget "markdown";
   if bool_decide (is_Some (fs !! StreamlitApp.BANNER_IMAGE_PATH))
   then StWidget "image"
   else StWarning ("Banner image not found at "
                   +:+ StreamlitApp.BANNER_IMAGE_PATH
                   +:+ ". Please check the path.");
   StWidget "title"; StWidget "markdown"; StWidget "markdown"].

Definition no_data_loaded : event :=
  StError "No data loaded. Please ensure CSV files are present in the './data' folder and are valid.".

(** The files [data.py] loads: the children with suffix [.csv], in listing
    order. *)
Definition data_discovered (folder : string) (listing : list string) : list Path :=
  List.filter (fun file => String.eqb (suffix file) ".csv")
    (map (joinpath folder) listing).

(** Folders [data.py] cannot load: there is nothing at the path, or there is
    a directory in which no child has the suffix [.csv]. *)
Inductive unloadable (fs : FileSystem) (folder : string) : Prop :=
| folder_missing :
    fs !! folder = None → unloadable fs folder
| folder_without_csv listing :
    fs !! folder = Some (Dir listing) →
    data_discovered folder listing = [] →
    unloadable fs folder.

(** ** Concrete folders *)

(** Two well-formed files under one header, and a text file beside them. *)
Definition fs_two : FileSystem :=
  <[ "data" := Dir ["a.csv"; "notes.txt"; "b.csv"] ]>
  (<[ "data/a.csv" := File ["x;y"; "1;2"; "3;4"] ]>
  (<[ "data/b.csv" := File ["x;y"; "5;6"] ]> ∅)).

(** A well-formed file, and a file whose second data line has a field too
    many. *)
Definition fs_malformed : FileSystem :=
  <[ "data" := Dir ["a.csv"; "b.csv"] ]>
  (<[ "data/a.csv" := File ["x;y"; "1;2"] ]>
  (<[ "data/b.csv" := File ["x;y"; "3;4"; "5;6;7"; "8;9"] ]> ∅)).

(** A file that is its header and nothing else, next to a file with one
    data row. *)
Definition fs_header_only : FileSystem :=
  <[ "./data" := Dir ["h.csv"; "b.csv"] ]>
  (<[ "./data/h.csv" := File ["x;y"] ]>
  (<[ "./data/b.csv" := File ["x;y"; "1;2"] ]> ∅)).

(** A directory without a CSV file. *)
Definition fs_no_csv : FileSystem :=
  <[ "data" := Dir ["notes.txt"; "csv"] ]>
  (<[ "data/notes.txt" := File ["hello"] ]> ∅).

(** CSV files none of which has a row: an empty file, a dangling entry,
    undecodable bytes, a directory, a header alone. *)
Definition fs_unusable : FileSystem :=
  <[ "data" := Dir ["e.csv"; "gone.csv"; "g.csv"; "d.csv"; "h.csv"] ]>
  (<[ "data/e.csv" := File [] ]>
  (<[ "data/g.csv" := Garbled "'utf-8' codec can't decode byte 0xff" ]>
  (<[ "data/d.csv" := Dir [] ]>
  (<[ "data/h.csv" := File ["x;y"] ]> ∅)))).

(** The data folder of the application with nothing but an empty file. *)
Definition fs_empty_file : FileSystem :=
  <[ "./data" := Dir ["e.csv"] ]>
  (<[ "./data/e.csv" := File [] ]> ∅).

(** ** Further vocabulary *)



(** The credential is there and is not the empty string. *)
Definition has_key (openai_api_key : option string) : bool :=
  match openai_api_key with
  | Some key => StreamlitApp.truthy key
  | None => false
  end.

(** The last lines of the page. *)
Definition footer : list event := [StWidget "markdown"; StWidget "caption"].

(** The preview of the data and the question box. *)
Definition page_body (df : DataFrame) : list event :=
  [StWidget "expander"; StWidget "write"; StDataframe (StreamlitApp.tail 3 df);
   StWidget "subheader"; StWidget "text_area"].

(** The frame of [fs_app] below. *)
Definition sales : DataFrame :=
  {| columns := ["item"; "qty"];
     index := [0; 1; 2; 3];
     data := [[Some "a"; Some "1"]; [Some "b"; Some "2"];
              [Some "c"; Some "3"]; [Some "d"; Some "4"]] |}.

(** Two files whose headers differ. *)
Definition fs_mixed : FileSystem :=
  <[ "data" := Dir ["a.csv"; "b.csv"; ".csv"] ]>
  (<[ "data/a.csv" := File ["x;y"; "1;2"] ]>
  (<[ "data/b.csv" := File ["y;z"; "3;4"; "5;6;7"; EmptyString; "8"] ]>
  (<[ "data/.csv" := File ["x;y"; "9;10"] ]> ∅))).

(** Comma-separated files for [data.py]; the second has a line with a field
    too many. *)
Definition fs_commas : FileSystem :=
  <[ "data" := Dir ["a.csv"; "b.csv"; "c.csv"] ]>
  (<[ "data/a.csv" := File ["x,y"; "1,2"] ]>
  (<[ "data/b.csv" := File ["x,y"; "3,4"; "5,6,7"; "8,9"] ]>
  (<[ "data/c.csv" := File ["x,y"; "10,11"] ]> ∅))).

(** The data folder of the application with one file of four rows. *)
Definition fs_app : FileSystem :=
  <[ "./data" := Dir ["sales.csv"] ]>
  (<[ "./data/sales.csv" := File ["item;qty"; "a;1"; "b;2"; "c;3"; "d;4"] ]> ∅).

(** ** Matching of the glob pattern *)

Lemma fnmatch_literal pat s :
  literal pat = true → fnmatch pat s = true ↔ s = pat.
Proof.
  revert s. induction pat as [|c pat IH]; intros s Hlit.
  - destruct s; simpl; split; congruence.
  - simpl in Hlit.
    apply andb_prop in Hlit as [Hc Hlit]. apply andb_prop in Hc as [Hstar Hq].
    apply negb_true_iff in Hstar, Hq. simpl. rewrite Hstar.
    destruct s as [|d s]; [split; congruence|].
    rewrite Hq. simpl. rewrite andb_true_iff, (IH s Hlit).
    destruct (Ascii.eqb_spec c d) as [->|Hne]; split.
    + intros [_ ->]. reflexivity.
    + intros [= ->]. split; reflexivity.
    + intros [[=] _].
    + intros H. injection H as Hd _. symmetry in Hd. contradiction.
Qed.

Lemma fnmatch_star_cons pat c s :
  fnmatch (String "*" pat) (String c s)
  = fnmatch pat (String c s) || fnmatch (String "*" pat) s.
Proof. destruct s; reflexivity. Qed.

Lemma fnmatch_star_nil pat :
  fnmatch (String "*" pat) EmptyString = fnmatch pat EmptyString.
Proof. simpl. apply orb_false_r. Qed.

Lemma csv_suffixed_cons c s :
  csv_suffixed (String c s) ↔ String c s = ".csv" ∨ csv_suffixed s.
Proof.
  unfold csv_suffixed. split.
  - intros [[|d stem] H]; [left; exact H|right].
    simpl in H. injection H as _ H. eauto.
  - intros [H | [stem H]].
    + exists EmptyString. exact H.
    + exists (String c stem). simpl. by rewrite H.
Qed.

Lemma glob_csv_suffixed child :
  fnmatch "*.csv" child = true ↔ csv_suffixed child.
Proof.
  induction child as [|c s IH].
  - rewrite fnmatch_star_nil. split; [discriminate|].
    intros [[|d stem] H]; discriminate.
  - rewrite fnmatch_star_cons, orb_true_iff, IH, csv_suffixed_cons.
    by rewrite (fnmatch_literal ".csv").
Qed.

(** ** Laws of the effect monad *)

Section EffectLaws.
Context {E A B : Type}.
Implicit Types (out : list E) (k : A → Eff E B).

Lemma bind_ok out a k :
  bind (out, Ok a) k = (out ++ events (k a), result (k a)).
Proof. unfold bind, events, result. by destruct (k a). Qed.

Lemma bind_raised out e k : bind (out, Raised e) k = (out, Raised e).
Proof. reflexivity. Qed.

Lemma bind_ret_l a k : bind (ret a) k = k a.
Proof. unfold bind, ret. by destruct (k a). Qed.

Lemma bind_quiet a k : bind ([], Ok a) k = k a.
Proof. apply bind_ret_l. Qed.

Lemma bind_pure out a (f : A → B) :
  bind (out, Ok a) (fun x => ret (f x)) = (out, Ok (f a)).
Proof. unfold bind, ret. by rewrite app_nil_r. Qed.

Lemma try_except_ok out (a : A) h : try_except (out, Ok a) h = (out, Ok a).
Proof. reflexivity. Qed.

Lemma try_except_raised out e (h : exn → Eff E A) :
  try_except (out, Raised e) h = (out ++ events (h e), result (h e)).
Proof. unfold try_except, events, result. by destruct (h e). Qed.
End EffectLaws.

(** ** The reader *)

Lemma split_fields_nonempty d line : pd.split_fields d line ≠ [].
Proof.
  destruct line as [|c rest]; simpl; [discriminate|].
  destruct (Ascii.eqb c d); [discriminate|].
  destruct (pd.split_fields d rest); discriminate.
Qed.

Lemma length_pad w fields :
  length fields ≤ w → length (pd.pad w fields) = w.
Proof.
  intros H. unfold pd.pad.
  rewrite length_app, length_map, length_replicate. lia.
Qed.

Lemma pad_exact w fields :
  length fields = w → pd.pad w fields = map Some fields.
Proof.
  intros <-. unfold pd.pad. rewrite Nat.sub_diag. simpl. apply app_nil_r.
Qed.

(** Under the warn policy the reader takes every line that is not
    malformed, warns once for each malformed one, and never raises. *)
Lemma read_rows_warn w lines :
  pd.read_rows pd.on_warn w lines
  = (map (fun f => ParserWarning w (length f)) (List.filter (malformed w) lines),
     Ok (map (pd.pad w) (List.filter (fun f => negb (malformed w f)) lines))).
Proof.
  induction lines as [|f rest IH]; [reflexivity|].
  cbn [pd.read_rows List.filter].
  change (w <? length f) with (malformed w f).
  destruct (malformed w f); rewrite IH; [reflexivity|].
  by rewrite bind_pure.
Qed.

(** Without malformed lines no policy has anything to do. *)
Lemma read_rows_clean policy w lines :
  Forall (fun f => malformed w f = false) lines →
  pd.read_rows policy w lines = ([], Ok (map (pd.pad w) lines)).
Proof.
  induction 1 as [|f rest Hf _ IH]; [reflexivity|].
  simpl. unfold malformed in Hf. rewrite Hf, IH. by rewrite bind_pure.
Qed.

Lemma filter_all {A} (f : A → bool) l :
  Forall (fun x => f x = true) l → List.filter f l = l.
Proof.
  induction 1 as [|x l Hx _ IH]; [reflexivity|]. simpl. by rewrite Hx, IH.
Qed.

Lemma filter_none {A} (f : A → bool) l :
  Forall (fun x => f x = false) l → List.filter f l = [].
Proof.
  induction 1 as [|x l Hx _ IH]; [reflexivity|]. simpl. by rewrite Hx, IH.
Qed.

Lemma well_formed_no_malformed d header lines :
  well_formed d header lines →
  Forall (fun f => malformed (length header) f = false) (data_lines d lines).
Proof.
  intros [_ H]. eapply Forall_impl; [exact H|].
  intros f Hf. unfold malformed. apply Nat.ltb_ge. simpl in Hf. lia.
Qed.

(** In a well-formed file nothing is dropped and nothing is padded. *)
Lemma well_formed_kept_rows d header lines :
  well_formed d header lines → kept_rows d lines = data_rows d lines.
Proof.
  intros Hwf. pose proof (well_formed_no_malformed _ _ _ Hwf) as Hok.
  destruct Hwf as [Hh Hw]. unfold kept_rows, data_rows. rewrite Hh.
  rewrite filter_all.
  - apply map_ext_Forall. eapply Forall_impl; [exact Hw|].
    intros f Hf. by apply pad_exact.
  - eapply Forall_impl; [exact Hok|]. intros f Hf. simpl. by rewrite Hf.
Qed.

(** ** Concatenation *)

Lemma union_names_fresh seen names :
  NoDup (seen ++ names) → pd.union_names seen names = seen ++ names.
Proof.
  revert seen. induction names as [|n rest IH]; intros seen Hnd; simpl.
  - by rewrite app_nil_r.
  - assert (n ∉ seen) as Hn.
    { apply NoDup_app in Hnd as (_ & Hdisj & _).
      intros Hin. apply (Hdisj n Hin). left. }
    rewrite bool_decide_eq_false_2 by exact Hn.
    rewrite IH; rewrite <- app_assoc; simpl; [reflexivity | exact Hnd].
Qed.

Lemma union_names_seen seen names :
  (∀ n, n ∈ names → n ∈ seen) → pd.union_names seen names = seen.
Proof.
  induction names as [|n rest IH]; intros Hsub; simpl; [reflexivity|].
  rewrite bool_decide_eq_true_2 by (apply Hsub; left).
  apply IH. intros m Hm. apply Hsub. by right.
Qed.

(** Frames that share one list of distinct column labels: that list is the
    union. *)
Lemma foldl_union_names_same header objs :
  Forall (fun df => columns df = header) objs →
  foldl (fun seen df => pd.union_names seen (columns df)) header objs = header.
Proof.
  induction 1 as [|df objs Hdf _ IH]; simpl; [reflexivity|].
  rewrite Hdf, union_names_seen; auto.
Qed.

Lemma union_columns_same header objs :
  NoDup header → objs ≠ [] →
  Forall (fun df => columns df = header) objs →
  pd.union_columns objs = header.
Proof.
  intros Hnd Hne Hall. destruct Hall as [|df objs Hdf Hall]; [done|].
  unfold pd.union_columns. simpl. rewrite Hdf.
  rewrite (union_names_fresh [] header) by exact Hnd.
  by apply foldl_union_names_same.
Qed.

Lemma lookup_col_head label cols v row :
  pd.lookup_col label (label :: cols) (v :: row) = v.
Proof. simpl. by rewrite String.eqb_refl. Qed.

Lemma lookup_col_skip label c cols v row :
  label ≠ c →
  pd.lookup_col label (c :: cols) (v :: row) = pd.lookup_col label cols row.
Proof. intros Hne. simpl. by apply String.eqb_neq in Hne as ->. Qed.

(** Aligning a row to the labels it already has changes nothing. *)
Lemma align_same cols row :
  NoDup cols → length row = length cols → pd.align cols cols row = row.
Proof.
  unfold pd.align. intros Hnd. revert row.
  induction Hnd as [|c cols Hc Hnd IH]; intros [|v row] Hlen;
    simpl in Hlen; try discriminate; [reflexivity|].
  cbn [map]. rewrite lookup_col_head. f_equal.
  transitivity (map (fun label => pd.lookup_col label cols row) cols);
    [|apply IH; lia].
  apply map_ext_Forall, Forall_forall. intros label Hin.
  apply lookup_col_skip. intros ->. apply Hc. by apply list_elem_of_In.
Qed.

Lemma flat_map_align_same header objs :
  NoDup header →
  Forall (fun df => columns df = header ∧ rectangular df) objs →
  List.flat_map (fun df => map (pd.align header (columns df)) (data df)) objs
  = List.flat_map data objs.
Proof.
  intros Hnd. induction 1 as [|df objs [Hcols Hrect] _ IH]; [reflexivity|].
  simpl. rewrite IH. f_equal. rewrite <- (map_id (data df)) at 2.
  apply map_ext_Forall. eapply Forall_impl; [exact Hrect|].
  intros row Hrow. simpl in Hrow. rewrite Hcols in *. by apply align_same.
Qed.

(** [pd.concat] of frames with the same distinct columns stacks their rows
    in order; with [ignore_index] the row labels are renumbered from 0. *)
Lemma concat_same header objs :
  NoDup header → objs ≠ [] →
  Forall (fun df => columns df = header ∧ rectangular df) objs →
  pd.concat objs true
  = ([], Ok {| columns := header;
               index := seq 0 (length (List.flat_map data objs));
               data := List.flat_map data objs |}).
Proof.
  intros Hnd Hne Hall. unfold pd.concat.
  destruct objs as [|df objs]; [done|].
  rewrite (union_columns_same header); [| done | done |].
  - by rewrite flat_map_align_same.
  - eapply Forall_impl; [exact Hall|]. by intros ? [? _].
Qed.

(** ** One file through [load_file] *)

Lemma read_csv_warn fs p d eng lines header :
  fs !! path_str p = Some (File lines) →
  header_of d lines = Some header →
  pd.read_csv fs p d pd.on_warn eng
  = (map (fun f => ParserWarning (length header) (length f))
       (List.filter (malformed (length header)) (data_lines d lines)),
     Ok (parsed d lines)).
Proof.
  intros Hfile Hheader. unfold pd.read_csv, parsed, kept_rows. rewrite Hfile.
  rewrite Hheader. unfold header_of, data_lines, nonblank in *.
  destruct (List.filter _ lines) as [|h body]; [discriminate|].
  injection Hheader as <-. by rewrite read_rows_warn, bind_pure.
Qed.

Lemma read_csv_blank fs p d policy eng lines :
  fs !! path_str p = Some (File lines) →
  header_of d lines = None →
  pd.read_csv fs p d policy eng = ([], Raised EmptyDataError).
Proof.
  intros Hfile Hheader. unfold pd.read_csv. rewrite Hfile.
  unfold header_of, nonblank in Hheader.
  by destruct (List.filter _ lines).
Qed.

(** [load_file] returns for every path, whatever is there: the frame of the
    file, or the frame without rows and columns after a single report. *)
Lemma load_file_spec fs p :
  StreamlitApp.load_file fs p = (file_report fs p, Ok (contribution fs p)).
Proof.
  unfold StreamlitApp.load_file, contribution, file_report, file_lines.
  destruct (fs !! path_str p) as [[listing|lines|cause]|] eqn:Hnode.
  - unfold pd.read_csv. rewrite Hnode. reflexivity.
  - destruct (header_of ";" lines) as [header|] eqn:Hheader.
    + rewrite (read_csv_warn _ _ _ _ lines header), bind_pure by done.
      reflexivity.
    + rewrite (read_csv_blank _ _ _ _ _ lines) by done.
      unfold parsed. rewrite Hheader. reflexivity.
  - unfold pd.read_csv. rewrite Hnode. reflexivity.
  - unfold pd.read_csv. rewrite Hnode. reflexivity.
Qed.

Lemma is_prefix_append s t : is_prefix s (s +:+ t) = true.
Proof.
  induction s as [|c s IH]; [reflexivity|].
  change (String c s +:+ t) with (String c (s +:+ t)).
  simpl. by rewrite Ascii.eqb_refl, IH.
Qed.

Lemma is_prefix_grow s t b : is_prefix s t = true → is_prefix s (t +:+ b) = true.
Proof.
  revert t. induction s as [|c s IH]; intros [|d t] H; try done.
  change (String d t +:+ b) with (String d (t +:+ b)).
  simpl in *. apply andb_prop in H as [-> H]. by rewrite IH.
Qed.

Lemma occurs_in_prefix s t : is_prefix s t = true → occurs_in s t = true.
Proof. intros H. destruct t; simpl; by rewrite H. Qed.

Lemma occurs_in_cons s c t : occurs_in s t = true → occurs_in s (String c t) = true.
Proof. intros H. simpl. rewrite H. apply orb_true_r. Qed.

Lemma occurs_in_after s a t : occurs_in s t = true → occurs_in s (a +:+ t) = true.
Proof.
  intros H. induction a as [|c a IH]; [exact H|].
  change (String c a +:+ t) with (String c (a +:+ t)).
  by apply occurs_in_cons.
Qed.

Lemma occurs_in_before s t b : occurs_in s t = true → occurs_in s (t +:+ b) = true.
Proof.
  induction t as [|c t IH]; intros H.
  - destruct s; [|discriminate]. by destruct b.
  - change (String c t +:+ b) with (String c (t +:+ b)).
    simpl in H. apply orb_prop in H as [H | H].
    + apply occurs_in_prefix.
      by apply (is_prefix_grow s (String c t) b).
    + by apply occurs_in_cons, IH.
Qed.

Lemma occurs_in_self s : occurs_in s s = true.
Proof.
  apply occurs_in_prefix. induction s as [|c s IH]; [reflexivity|].
  simpl. by rewrite Ascii.eqb_refl.
Qed.

(** X5.  Whenever the reader raises (nothing at the path, a directory,
    undecodable bytes, no line that is not blank), [load_file] catches the
    exception, shows one message that carries the name of the file, and
    returns the frame without rows and columns. *)
Lemma load_file_failure_reported fs p :
  header_of ";" (file_lines fs p) = None →
  ∃ ev, StreamlitApp.load_file fs p = ([ev], Ok DataFrame_new) ∧
    is_st ev = true ∧ names_file ev (name p) = true.
Proof.
  intros Hraised. rewrite load_file_spec.
  unfold contribution, parsed. rewrite Hraised.
  unfold file_report, file_lines in *.
  destruct (fs !! path_str p) as [[listing|lines|cause]|]; eexists;
    try rewrite Hraised; (split; [reflexivity|]); (split; [reflexivity|]);
    cbn [names_file]; unfold path_str.
  - apply occurs_in_after, occurs_in_before, occurs_in_self.
  - apply occurs_in_after, occurs_in_before, occurs_in_self.
  - apply occurs_in_after, occurs_in_before, occurs_in_self.
  - apply occurs_in_after, occurs_in_before, occurs_in_after, occurs_in_after,
      occurs_in_self.
Qed.

Lemma load_each_spec fs files acc :
  StreamlitApp.load_each fs files acc
  = (List.flat_map (file_report fs) files,
     Ok (acc ++ List.filter (fun df => negb (empty df))
                  (map (contribution fs) files))).
Proof.
  revert acc. induction files as [|p files IH]; intros acc.
  - simpl. by rewrite app_nil_r.
  - cbn [StreamlitApp.load_each]. rewrite load_file_spec, bind_ok.
    cbn [map List.filter List.flat_map].
    destruct (negb (empty (contribution fs p))); rewrite IH; simpl.
    + by rewrite <- app_assoc.
    + reflexivity.
Qed.

Lemma parsed_rectangular d lines : rectangular (parsed d lines).
Proof.
  unfold rectangular, parsed, kept_rows.
  destruct (header_of d lines) as [header|]; simpl; [|constructor].
  apply Forall_map, Forall_forall. intros f Hin.
  apply list_elem_of_In, filter_In in Hin as [_ Hok]. simpl.
  apply length_pad. unfold malformed in Hok.
  apply negb_true_iff, Nat.ltb_ge in Hok. exact Hok.
Qed.

(** A frame is empty exactly when the file keeps no row. *)
Lemma empty_parsed d lines :
  empty (parsed d lines) = bool_decide (kept_rows d lines = []).
Proof.
  unfold parsed, kept_rows, empty.
  destruct (header_of d lines) as [header|] eqn:Hheader; simpl; [|reflexivity].
  assert (length header ≠ 0) as Hw.
  { unfold header_of in Hheader. destruct (nonblank lines); [discriminate|].
    injection Hheader as <-. intros Hlen. apply length_zero_iff_nil in Hlen.
    by apply split_fields_nonempty in Hlen. }
  apply Nat.eqb_neq in Hw as ->. simpl. rewrite length_seq.
  destruct (map _ _); reflexivity.
Qed.


(** ** The whole folder through [load_data] *)

Section LoadData.
Variable fs : FileSystem.
Variable folder : string.

Lemma is_dir_true listing :
  fs !! folder = Some (Dir listing) → is_dir fs folder = true.
Proof. unfold is_dir. by intros ->. Qed.

Lemma discovered_dir listing :
  fs !! folder = Some (Dir listing) →
  discovered fs folder = map (joinpath folder) (List.filter (fnmatch "*.csv") listing).
Proof. unfold discovered, glob. by intros ->. Qed.

Lemma load_data_unusable listing :
  fs !! folder = Some (Dir listing) →
  discovered fs folder ≠ [] → contributions fs folder = [] →
  StreamlitApp.load_data fs folder
  = (List.flat_map (file_report fs) (discovered fs folder) ++ [no_usable_data],
     Ok DataFrame_new).
Proof.
  intros Hdir Hfiles Hnone. unfold StreamlitApp.load_data.
  rewrite (is_dir_true listing Hdir). cbn [negb].
  fold (discovered fs folder). rewrite bool_decide_eq_false_2 by exact Hfiles.
  rewrite load_each_spec, bind_ok. cbn [app]. fold (contributions fs folder).
  rewrite Hnone. reflexivity.
Qed.

Lemma load_data_combined listing :
  fs !! folder = Some (Dir listing) →
  contributions fs folder ≠ [] →
  let cols := pd.union_columns (contributions fs folder) in
  let rows :=
    List.flat_map (fun df => map (pd.align cols (columns df)) (data df))
      (contributions fs folder) in
  StreamlitApp.load_data fs folder
  = (List.flat_map (file_report fs) (discovered fs folder)
       ++ [StSuccess ("All data successfully loaded and combined. Total rows: "
                      +:+ pretty (length rows))],
     Ok {| columns := cols; index := seq 0 (length rows); data := rows |}).
Proof.
  intros Hdir Hsome cols rows. unfold StreamlitApp.load_data.
  rewrite (is_dir_true listing Hdir). cbn [negb].
  fold (discovered fs folder).
  assert (discovered fs folder ≠ []) as Hfiles.
  { intros Hnil. apply Hsome. unfold contributions. by rewrite Hnil. }
  rewrite bool_decide_eq_false_2 by exact Hfiles.
  rewrite load_each_spec, bind_ok. cbn [app]. fold (contributions fs folder).
  rewrite bool_decide_eq_false_2 by exact Hsome.
  unfold pd.concat. destruct (contributions fs folder) as [|df objs] eqn:Hobjs; [done|].
  rewrite bind_ret_l. unfold shape0. cbn [index]. rewrite length_seq.
  reflexivity.
Qed.

(** The guarded loader returns a frame on every folder of every file
    system: no exception leaves it. *)
Lemma load_data_returns :
  ∃ df, result (StreamlitApp.load_data fs folder) = Ok df.
Proof.
  destruct (fs !! folder) as [[listing|lines|cause]|] eqn:Hnode;
    try (unfold StreamlitApp.load_data, is_dir; rewrite Hnode; simpl; eauto; fail).
  destruct (decide (discovered fs folder = [])) as [Hnil|Hfiles].
  - unfold StreamlitApp.load_data. rewrite (is_dir_true listing Hnode).
    fold (discovered fs folder). rewrite bool_decide_eq_true_2 by exact Hnil.
    simpl. eauto.
  - destruct (decide (contributions fs folder = [])) as [Hnone|Hsome].
    + rewrite (load_data_unusable listing); eauto.
    + rewrite (load_data_combined listing); eauto.
Qed.
End LoadData.

(** ** Folders whose files share their columns *)

Lemma data_parsed d lines : data (parsed d lines) = kept_rows d lines.
Proof.
  unfold parsed, kept_rows. by destruct (header_of d lines).
Qed.

Lemma columns_parsed d lines header :
  header_of d lines = Some header → columns (parsed d lines) = header.
Proof. unfold parsed. by intros ->. Qed.







(** C3.  A folder path that is not an existing directory: one "folder not
    found" error, the frame without rows and columns, and nothing else. *)
Theorem load_data_folder_not_found fs folder :
  (∀ listing, fs !! folder ≠ Some (Dir listing)) →
  StreamlitApp.load_data fs folder
  = ([StError ("Error: The folder " +:+ folder +:+ " was not found.")],
     Ok DataFrame_new)
  ∧ empty DataFrame_new = true.
Proof.
  intros Hnot. split; [|reflexivity].
  unfold StreamlitApp.load_data, is_dir.
  destruct (fs !! folder) as [[listing|lines|cause]|]; try reflexivity.
  by destruct (Hnot listing).
Qed.

(** C4.  An existing directory none of whose children has a name ending in
    the CSV extension: one "no CSV files" warning and the frame without rows
    and columns. *)
Theorem load_data_no_csv_files fs folder listing :
  fs !! folder = Some (Dir listing) →
  (∀ child, child ∈ listing → ¬ csv_suffixed child) →
  StreamlitApp.load_data fs folder
  = ([StWarning ("No CSV files found in the folder: " +:+ folder)],
     Ok DataFrame_new)
  ∧ empty DataFrame_new = true.
Proof.
  intros Hdir Hnone. split; [|reflexivity].
  assert (discovered fs folder = []) as Hnil.
  { rewrite (discovered_dir _ _ listing Hdir), filter_none; [reflexivity|].
    apply Forall_forall. intros child Hin.
    apply not_true_is_false. intros Hmatch.
    by apply (Hnone child Hin), glob_csv_suffixed. }
  unfold StreamlitApp.load_data. rewrite (is_dir_true _ _ listing Hdir).
  fold (discovered fs folder). by rewrite bool_decide_eq_true_2.
Qed.


(** ** The memoised loader *)

Lemma st_only_empty : st_only ∅.
Proof. apply map_Forall_empty. Qed.

Lemma cache_data_st_only f arg (cache : Cache) :
  st_only cache → st_only (snd (cache_data f arg cache)).
Proof.
  intros Hcache. unfold cache_data.
  destruct (cache !! arg) as [[df replay]|] eqn:Hhit; [exact Hcache|].
  destruct (f arg) as [out [df|e]]; [|exact Hcache].
  apply map_Forall_insert_2; [|exact Hcache].
  apply Forall_forall. intros ev Hin.
  by apply list_elem_of_In, filter_In in Hin as [_ ?].
Qed.

(** A run of the script leaves the cache as the decorator left it. *)
Lemma run_st_only fs chat query key (cache : Cache) :
  st_only cache → st_only (snd (StreamlitApp.run fs chat query key cache)).
Proof.
  intros Hcache. unfold StreamlitApp.run.
  pose proof (cache_data_st_only (StreamlitApp.load_data fs)
                StreamlitApp.DATA_FOLDER cache Hcache) as Hnext.
  unfold StreamlitApp.load_data_cached.
  by destruct (cache_data _ _ cache).
Qed.

(** C8.  Two calls of the memoised [load_data] with the same folder, one
    after the other in a session: both return, and return the same frame.
    The first call returns the stored frame if the session has one for the
    folder and the frame of a scan otherwise; the second call leaves the
    cache as the first left it. *)
Theorem load_data_twice_same_frame fs folder (cache : Cache) :
  let first := StreamlitApp.load_data_cached fs folder cache in
  let second := StreamlitApp.load_data_cached fs folder (snd first) in
  (∃ df, result (fst first) = Ok df ∧ result (fst second) = Ok df) ∧
  result (fst first)
  = match cache !! folder with
    | Some (df, _) => Ok df
    | None => result (StreamlitApp.load_data fs folder)
    end ∧
  snd second = snd first.
Proof.
  unfold StreamlitApp.load_data_cached, cache_data. cbn zeta.
  destruct (cache !! folder) as [[df replay]|] eqn:Hhit.
  - cbn [fst snd]. rewrite Hhit. cbn [fst snd result]. eauto.
  - destruct (load_data_returns fs folder) as [df Hdf].
    destruct (StreamlitApp.load_data fs folder) as [out r].
    cbn [result snd] in Hdf. subst r. cbn [fst snd].
    rewrite lookup_insert_eq. cbn [fst snd result]. eauto.
Qed.

(** ** The script *)

Section ScriptFacts.
Variable fs : FileSystem.
Variable chat : DataFrame → string → Py StreamlitApp.answer.

Lemma file_report_no_engine_call p :
  Forall (fun ev => is_engine_call ev = false) (file_report fs p).
Proof.
  unfold file_report.
  destruct (fs !! path_str p) as [[?|lines|?]|]; try by repeat constructor.
  destruct (header_of ";" lines); [|by repeat constructor].
  by apply Forall_map, Forall_forall.
Qed.

Lemma load_data_no_engine_call folder :
  Forall (fun ev => is_engine_call ev = false)
    (events (StreamlitApp.load_data fs folder)).
Proof.
  assert (∀ files, Forall (fun ev => is_engine_call ev = false)
                     (List.flat_map (file_report fs) files)) as Hreports.
  { induction files as [|p files IH]; [constructor|].
    simpl. apply Forall_app. split; [apply file_report_no_engine_call|exact IH]. }
  destruct (fs !! folder) as [[listing|lines|cause]|] eqn:Hnode;
    try (unfold StreamlitApp.load_data, is_dir; rewrite Hnode;
         by repeat constructor).
  destruct (decide (discovered fs folder = [])) as [Hnil|Hfiles].
  { unfold StreamlitApp.load_data. rewrite (is_dir_true _ _ listing Hnode).
    fold (discovered fs folder). rewrite bool_decide_eq_true_2 by exact Hnil.
    by repeat constructor. }
  destruct (decide (contributions fs folder = [])) as [Hnone|Hsome].
  - rewrite (load_data_unusable _ _ listing) by done.
    apply Forall_app. split; [apply Hreports|by repeat constructor].
  - rewrite (load_data_combined _ _ listing) by done.
    apply Forall_app. split; [apply Hreports|by repeat constructor].
Qed.

Lemma load_data_cached_no_engine_call folder (cache : Cache) :
  st_only cache →
  Forall (fun ev => is_engine_call ev = false)
    (events (fst (StreamlitApp.load_data_cached fs folder cache))).
Proof.
  intros Hcache. unfold StreamlitApp.load_data_cached, cache_data.
  destruct (cache !! folder) as [[df replay]|] eqn:Hhit.
  - apply Hcache in Hhit. cbn [fst snd events] in *.
    eapply Forall_impl; [exact Hhit|]. by intros [] ?.
  - pose proof (load_data_no_engine_call folder) as Hfresh.
    by destruct (StreamlitApp.load_data fs folder) as [out [df|e]].
Qed.

(** C9.  When the loader hands the script an empty frame, the run ends
    at [st.stop()]: after the loader's own messages the script shows its
    one "no data loaded" error and nothing else, and the query engine is
    never called, whatever the question and the credential. *)
Theorem run_halts_on_empty_frame query key (cache : Cache) df :
  st_only cache →
  result (fst (StreamlitApp.load_data_cached fs StreamlitApp.DATA_FOLDER cache))
  = Ok df →
  empty df = true →
  let out := fst (StreamlitApp.run fs chat query key cache) in
  result out = Raised StopException ∧
  events out
  = preamble fs
      ++ events (fst (StreamlitApp.load_data_cached fs
                        StreamlitApp.DATA_FOLDER cache))
      ++ [no_data_loaded] ∧
  Forall (fun ev => is_engine_call ev = false) (events out).
Proof.
  intros Hcache Hload Hempty out.
  pose proof (load_data_cached_no_engine_call StreamlitApp.DATA_FOLDER cache Hcache)
    as Hquiet.
  subst out. unfold StreamlitApp.run.
  destruct (StreamlitApp.load_data_cached fs StreamlitApp.DATA_FOLDER cache)
    as [[out r] cache'].
  cbn [fst snd result events] in *. subst r.
  unfold preamble.
  destruct (bool_decide (is_Some (fs !! StreamlitApp.BANNER_IMAGE_PATH)));
    cbn -[String.append]; rewrite Hempty; cbn -[String.append];
    (split; [reflexivity|]); (split; [reflexivity|]);
    repeat (apply Forall_cons; split; [reflexivity|]);
    (apply Forall_app; split; [exact Hquiet|by repeat constructor]).
Qed.
End ScriptFacts.

(** ** The unguarded loader of [data.py] *)

Lemma comprehension_spec {A B} (f : A → Py B) (g : A → B) xs :
  Forall (fun x => f x = ([], Ok (g x))) xs →
  comprehension f xs = ([], Ok (map g xs)).
Proof.
  induction 1 as [|x xs Hx _ IH]; [reflexivity|].
  simpl. rewrite Hx, bind_quiet, IH, bind_quiet. reflexivity.
Qed.

Lemma read_csv_clean fs p d policy eng lines header :
  fs !! path_str p = Some (File lines) →
  well_formed d header lines →
  pd.read_csv fs p d policy eng = ([], Ok (parsed d lines)).
Proof.
  intros Hfile Hwf.
  pose proof (well_formed_no_malformed _ _ _ Hwf) as Hok.
  destruct Hwf as [Hheader _].
  unfold pd.read_csv, parsed, kept_rows. rewrite Hfile, Hheader.
  unfold header_of, data_lines, nonblank in *.
  destruct (List.filter _ lines) as [|h body]; [discriminate|].
  injection Hheader as <-.
  rewrite read_rows_clean, bind_quiet by exact Hok.
  rewrite filter_all; [reflexivity|].
  eapply Forall_impl; [exact Hok|]. intros f Hf. simpl. by rewrite Hf.
Qed.

(** With at least one file to load, and every loaded file well-formed under
    the comma with the same distinct columns, [data.py] stacks the data rows
    as the guarded loader does. *)
Lemma data_load_data_rows fs folder listing header :
  fs !! folder = Some (Dir listing) →
  NoDup header →
  data_discovered folder listing ≠ [] →
  Forall (fun p => ∃ lines, fs !! path_str p = Some (File lines) ∧
                     well_formed "," header lines)
    (data_discovered folder listing) →
  let rows :=
    List.flat_map (fun p => data_rows "," (file_lines fs p))
      (data_discovered folder listing) in
  Data.load_data fs folder
  = ([], Ok {| columns := header; index := seq 0 (length rows); data := rows |}).
Proof.
  intros Hdir Hnd Hsome Hall rows. unfold Data.load_data, iterdir.
  rewrite Hdir, bind_ret_l. fold (data_discovered folder listing).
  rewrite (comprehension_spec _ (fun p => parsed "," (file_lines fs p))).
  2:{ eapply Forall_impl; [exact Hall|]. intros p (lines & Hfile & Hwf).
      unfold Data.load_file, file_lines. rewrite Hfile.
      by apply (read_csv_clean _ _ _ _ _ _ header). }
  rewrite bind_quiet.
  rewrite (concat_same header); [| done | | ].
  - rewrite bind_quiet. subst rows. unfold ret. do 3 f_equal.
    + f_equal. clear Hsome.
      induction Hall as [|p files (lines & Hfile & Hwf) _ IH]; [reflexivity|].
      simpl. rewrite !length_app, IH. f_equal. unfold file_lines.
      by rewrite Hfile, data_parsed, (well_formed_kept_rows _ header).
    + clear Hsome.
      induction Hall as [|p files (lines & Hfile & Hwf) _ IH]; [reflexivity|].
      simpl. rewrite IH. f_equal. unfold file_lines.
      by rewrite Hfile, data_parsed, (well_formed_kept_rows _ header).
  - intros Hnil. by apply map_eq_nil in Hnil.
  - apply Forall_map. eapply Forall_impl; [exact Hall|].
    intros p (lines & Hfile & [Hheader _]). simpl. unfold file_lines.
    rewrite Hfile. split; [by apply columns_parsed|apply parsed_rectangular].
Qed.

(** C10.  [data.py] raises where the guarded loader reports: a missing
    folder makes [iterdir] raise, and a directory without a [.csv] child
    makes [pd.concat] raise on the empty list.  The exception leaves
    [load_data], also through the cache decorator, which stores nothing. *)
Theorem data_load_data_raises fs folder :
  unloadable fs folder →
  ∃ e,
    e = match fs !! folder with
        | None => FileNotFoundError folder
        | Some _ => ValueError "No objects to concatenate"
        end ∧
    Data.load_data fs folder = ([], Raised e) ∧
    Data.load_data_cached fs folder ∅ = (([], Raised e), ∅).
Proof.
  intros Hbad. eexists. split; [reflexivity|].
  assert (Data.load_data fs folder
          = ([], Raised match fs !! folder with
                        | None => FileNotFoundError folder
                        | Some _ => ValueError "No objects to concatenate"
                        end)) as Hraise.
  { destruct Hbad as [Hnone | listing Hdir Hcsv].
    - unfold Data.load_data, iterdir. by rewrite Hnone.
    - unfold Data.load_data, iterdir. rewrite Hdir, bind_ret_l.
      fold (data_discovered folder listing). by rewrite Hcsv. }
  split; [exact Hraise|].
  unfold Data.load_data_cached, cache_data. rewrite lookup_empty.
  by rewrite Hraise.
Qed.

(** ** Examples *)

Example split_at_semicolons :
  pd.split_fields ";" "a;b,c;;d" = ["a"; "b,c"; EmptyString; "d"].
Proof. reflexivity. Qed.

Example glob_matches_hidden_and_plain :
  map (fnmatch "*.csv") ["a.csv"; ".csv"; "a.csv.bak"; "csv"; "A.CSV"]
  = [true; true; false; false; false].
Proof. reflexivity. Qed.

Example suffix_of_names :
  map (fun n => suffix (joinpath "d" n)) ["a.csv"; ".csv"; "a.b.csv"; "a."; "a"]
  = [".csv"; EmptyString; ".csv"; EmptyString; EmptyString].
Proof. reflexivity. Qed.

Example load_two_files :
  StreamlitApp.load_data fs_two "data"
  = ([StSuccess "All data successfully loaded and combined. Total rows: 3"],
     Ok {| columns := ["x"; "y"];
           index := [0; 1; 2];
           data := [[Some "1"; Some "2"]; [Some "3"; Some "4"];
                    [Some "5"; Some "6"]] |}).
Proof. reflexivity. Qed.

Example load_with_malformed_line :
  StreamlitApp.load_data fs_malformed "data"
  = ([ParserWarning 2 3;
      StSuccess "All data successfully loaded and combined. Total rows: 3"],
     Ok {| columns := ["x"; "y"];
           index := [0; 1; 2];
           data := [[Some "1"; Some "2"]; [Some "3"; Some "4"];
                    [Some "8"; Some "9"]] |}).
Proof. reflexivity. Qed.

Example load_unusable_folder :
  events (StreamlitApp.load_data fs_unusable "data")
  = [StWarning "Warning: The file e.csv is empty or contains no data rows.";
     StError "Error: The file data/gone.csv was not found.";
     StError "Error loading file g.csv: 'utf-8' codec can't decode byte 0xff";
     StError "Error loading file d.csv: [Errno 21] Is a directory: 'data/d.csv'";
     no_usable_data].
Proof. reflexivity. Qed.

Example data_py_stops_at_first_bad_file :
  Data.load_data fs_unusable "data" = ([], Raised EmptyDataError).
Proof. reflexivity. Qed.

(** ** The header-only file *)

(** C6.  A file that is only its header has zero data rows, and is not a
    failure to the reader: [pd.read_csv] raises nothing, so no handler of
    [load_file] runs.  The frame without rows is returned and nothing is
    reported. *)
Theorem load_file_header_only_unreported :
  let p := joinpath "./data" "h.csv" in
  data_lines ";" (file_lines fs_header_only p) = [] ∧
  StreamlitApp.load_file fs_header_only p
  = ([], Ok {| columns := ["x"; "y"]; index := []; data := [] |}) ∧
  empty {| columns := ["x"; "y"]; index := []; data := [] |} = true.
Proof. repeat split. Qed.

(** C7.  The same file in a folder: it contributes nothing to the combined
    frame, and no message of the load carries its name; the one message
    there is reports success. *)
Theorem load_data_header_only_silent :
  let p := joinpath "./data" "h.csv" in
  p ∈ discovered fs_header_only "./data" ∧
  data (contribution fs_header_only p) = [] ∧
  events (StreamlitApp.load_data fs_header_only "./data")
  = [StSuccess "All data successfully loaded and combined. Total rows: 1"] ∧
  forallb (fun ev => negb (names_file ev "h.csv"))
    (events (StreamlitApp.load_data fs_header_only "./data")) = true.
Proof.
  split; [by left|]. repeat split.
Qed.

(** ** The theorems at concrete folders *)

Ltac pick_child H :=
  repeat (apply elem_of_cons in H as [-> | H]); [..|by apply elem_of_nil in H].

Ltac not_csv H := apply glob_csv_suffixed in H; discriminate H.



Lemma load_data_folder_not_found_witness :
  StreamlitApp.load_data fs_two "./data"
  = ([StError "Error: The folder ./data was not found."], Ok DataFrame_new)
  ∧ empty DataFrame_new = true.
Proof.
  apply (load_data_folder_not_found fs_two "./data").
  intros listing. discriminate.
Defined.

Lemma load_data_no_csv_files_witness :
  StreamlitApp.load_data fs_no_csv "data"
  = ([StWarning "No CSV files found in the folder: data"], Ok DataFrame_new)
  ∧ empty DataFrame_new = true.
Proof.
  apply (load_data_no_csv_files fs_no_csv "data" ["notes.txt"; "csv"]).
  - reflexivity.
  - intros child Hin Hcsv. pick_child Hin; not_csv Hcsv.
Defined.


Lemma run_halts_on_empty_frame_witness :
  let out :=
    fst (StreamlitApp.run fs_empty_file (fun _ _ => ret StreamlitApp.AnswerNone)
           "How many rows are there?" (Some "sk-test") ∅) in
  result out = Raised StopException ∧
  events out
  = preamble fs_empty_file
      ++ events (fst (StreamlitApp.load_data_cached fs_empty_file
                        StreamlitApp.DATA_FOLDER ∅))
      ++ [no_data_loaded] ∧
  Forall (fun ev => is_engine_call ev = false) (events out).
Proof.
  apply (run_halts_on_empty_frame fs_empty_file
           (fun _ _ => ret StreamlitApp.AnswerNone)
           "How many rows are there?" (Some "sk-test") ∅ DataFrame_new).
  - apply st_only_empty.
  - reflexivity.
  - reflexivity.
Defined.

Lemma data_load_data_raises_witness :
  Data.load_data fs_two "./data" = ([], Raised (FileNotFoundError "./data")) ∧
  Data.load_data fs_no_csv "data"
  = ([], Raised (ValueError "No objects to concatenate")).
Proof.
  split.
  - destruct (data_load_data_raises fs_two "./data") as (e & -> & Hraise & _).
    + apply folder_missing. reflexivity.
    + exact Hraise.
  - destruct (data_load_data_raises fs_no_csv "data") as (e & -> & Hraise & _).
    + apply (folder_without_csv _ _ ["notes.txt"; "csv"]); reflexivity.
    + exact Hraise.
Defined.

(** * Further properties of the loaders and of the script *)

(** ** Discovery *)

Lemma filter_sublist {A} (f : A → bool) l : List.filter f l `sublist_of` l.
Proof.
  induction l as [|x l IH]; [constructor|].
  simpl. destruct (f x); by constructor.
Qed.

(** X1.  The scan of [load_data] finds the immediate children of the folder
    whose names end in [.csv], exactly those, each as the path [folder/name],
    and in the order in which the folder lists them. *)
Theorem discovered_are_csv_children fs folder listing :
  fs !! folder = Some (Dir listing) →
  (∀ p, p ∈ discovered fs folder ↔
        ∃ child, child ∈ listing ∧ csv_suffixed child ∧ p = joinpath folder child) ∧
  discovered fs folder `sublist_of` map (joinpath folder) listing.
Proof.
  intros Hdir. rewrite (discovered_dir _ _ listing Hdir). split.
  - intros p. rewrite list_elem_of_In, in_map_iff. split.
    + intros (child & <- & Hin). apply filter_In in Hin as [Hin Hmatch].
      exists child. by rewrite list_elem_of_In, <- glob_csv_suffixed.
    + intros (child & Hin & Hcsv & ->). exists child. split; [done|].
      apply filter_In. by rewrite <- list_elem_of_In, glob_csv_suffixed.
  - apply (fmap_sublist (joinpath folder)), filter_sublist.
Qed.

Lemma discovered_are_csv_children_witness :
  (∀ p, p ∈ discovered fs_mixed "data" ↔
        ∃ child, child ∈ ["a.csv"; "b.csv"; ".csv"] ∧ csv_suffixed child
                 ∧ p = joinpath "data" child) ∧
  discovered fs_mixed "data"
    `sublist_of` map (joinpath "data") ["a.csv"; "b.csv"; ".csv"].
Proof.
  apply (discovered_are_csv_children fs_mixed "data" ["a.csv"; "b.csv"; ".csv"]).
  reflexivity.
Defined.

(** ** The suffix test of [data.py] against the glob of the application *)

Lemma string_length_app a b :
  String.length (a +:+ b) = String.length a + String.length b.
Proof.
  induction a as [|c a IH]; [reflexivity|].
  change (String c a +:+ b) with (String c (a +:+ b)). simpl. by rewrite IH.
Qed.

Lemma rfind_dot_csv stem :
  rfind_dot (stem +:+ ".csv") = Some (String.length stem).
Proof.
  induction stem as [|c stem IH]; [reflexivity|].
  change (String c stem +:+ ".csv") with (String c (stem +:+ ".csv")).
  simpl. by rewrite IH.
Qed.

Lemma rfind_dot_lt n i : rfind_dot n = Some i → i < String.length n.
Proof.
  revert i. induction n as [|c n IH]; intros i; simpl; [discriminate|].
  destruct (rfind_dot n) as [j|].
  - intros [= <-]. specialize (IH j eq_refl). lia.
  - destruct (Ascii.eqb c "."); [|discriminate]. intros [= <-]. lia.
Qed.

Lemma substring_all n : String.substring 0 (String.length n) n = n.
Proof. induction n as [|c n IH]; [reflexivity|]. simpl. by rewrite IH. Qed.

Lemma substring_skip a b m :
  String.substring (String.length a) m (a +:+ b) = String.substring 0 m b.
Proof.
  induction a as [|c a IH]; [reflexivity|].
  change (String c a +:+ b) with (String c (a +:+ b)). simpl. exact IH.
Qed.

Lemma substring_split n i :
  i ≤ String.length n →
  ∃ pre, String.length pre = i ∧
         n = pre +:+ String.substring i (String.length n - i) n.
Proof.
  revert i. induction n as [|c n IH]; intros [|i] Hi; simpl in Hi.
  - by exists EmptyString.
  - lia.
  - exists EmptyString. split; [reflexivity|].
    rewrite Nat.sub_0_r. by rewrite substring_all.
  - destruct (IH i) as (pre & Hlen & Heq); [lia|].
    exists (String c pre). split; [simpl; by rewrite Hlen|].
    change (String c pre +:+ ?t) with (String c (pre +:+ t)).
    simpl. by rewrite <- Heq.
Qed.

(** [file.suffix == ".csv"] holds exactly for the names that end in [.csv]
    and have something in front of it: the bare name [.csv] has no suffix. *)
Lemma suffix_is_csv_iff folder child :
  suffix (joinpath folder child) = ".csv" ↔
  ∃ stem, stem ≠ EmptyString ∧ child = stem +:+ ".csv".
Proof.
  unfold suffix. cbn [name joinpath]. split.
  - destruct (rfind_dot child) as [i|] eqn:Hdot; [|discriminate].
    destruct ((0 <? i) && (i <? String.length child - 1)) eqn:Hrange;
      [|discriminate].
    intros Hsuffix. apply andb_prop in Hrange as [Hpos _].
    apply Nat.ltb_lt in Hpos. apply rfind_dot_lt in Hdot.
    destruct (substring_split child i) as (pre & Hlen & Heq); [lia|].
    rewrite Hsuffix in Heq. exists pre. split; [|exact Heq].
    intros ->. simpl in Hlen. lia.
  - intros (stem & Hstem & ->).
    rewrite rfind_dot_csv, string_length_app. cbn [String.length].
    assert (0 < String.length stem) as Hpos.
    { destruct stem; [done|simpl; lia]. }
    apply Nat.ltb_lt in Hpos as Hpos'. rewrite Hpos'.
    assert ((String.length stem <? String.length stem + 4 - 1) = true) as ->
      by (apply Nat.ltb_lt; lia).
    cbn [andb].
    replace (String.length stem + 4 - String.length stem) with 4 by lia.
    by rewrite substring_skip.
Qed.

(** X2.  The files [data.py] picks are the files the application discovers,
    minus a child named just [.csv], which only the glob matches. *)
Theorem data_discovery_within_glob fs folder listing p :
  fs !! folder = Some (Dir listing) →
  (p ∈ data_discovered folder listing ↔
   p ∈ discovered fs folder ∧ name p ≠ ".csv").
Proof.
  intros Hdir. rewrite (discovered_dir _ _ listing Hdir).
  unfold data_discovered.
  rewrite !list_elem_of_In, filter_In, !in_map_iff. split.
  - intros [(child & <- & Hin) Hsuffix].
    apply String.eqb_eq, suffix_is_csv_iff in Hsuffix as (stem & Hstem & ->).
    split.
    + exists (stem +:+ ".csv"). split; [done|]. apply filter_In.
      split; [done|]. apply glob_csv_suffixed. by exists stem.
    + cbn [name joinpath]. intros Heq.
      apply (f_equal String.length) in Heq.
      rewrite string_length_app in Heq. simpl in Heq.
      destruct stem; [done|simpl in Heq; lia].
  - intros [(child & <- & Hin) Hname]. apply filter_In in Hin as [Hin Hmatch].
    split; [by exists child|].
    apply String.eqb_eq, suffix_is_csv_iff.
    apply glob_csv_suffixed in Hmatch as [stem ->]. exists stem.
    split; [|done]. intros ->. by apply Hname.
Qed.

Lemma data_discovery_within_glob_witness :
  joinpath "data" ".csv" ∈ data_discovered "data" ["a.csv"; "b.csv"; ".csv"] ↔
  joinpath "data" ".csv" ∈ discovered fs_mixed "data"
  ∧ name (joinpath "data" ".csv") ≠ ".csv".
Proof.
  apply (data_discovery_within_glob fs_mixed "data" ["a.csv"; "b.csv"; ".csv"]).
  reflexivity.
Defined.

(** ** One file: what is kept, what is dropped, what is said *)







Lemma load_file_failure_reported_witness :
  ∃ ev, StreamlitApp.load_file fs_unusable (joinpath "data" "gone.csv")
        = ([ev], Ok DataFrame_new) ∧
    is_st ev = true ∧ names_file ev "gone.csv" = true.
Proof.
  apply (load_file_failure_reported fs_unusable (joinpath "data" "gone.csv")).
  reflexivity.
Defined.

(** ** The frame of the whole folder, whatever the files are *)

Lemma union_names_keeps seen names n :
  n ∈ seen → n ∈ pd.union_names seen names.
Proof.
  revert seen. induction names as [|m rest IH]; intros seen Hn; [exact Hn|].
  simpl. destruct (bool_decide (m ∈ seen)); apply IH; [exact Hn|].
  apply elem_of_app. by left.
Qed.

Lemma union_names_adds seen names n :
  n ∈ names → n ∈ pd.union_names seen names.
Proof.
  revert seen. induction names as [|m rest IH]; intros seen Hn.
  - by apply elem_of_nil in Hn.
  - simpl. apply elem_of_cons in Hn as [-> | Hn].
    + destruct (bool_decide (m ∈ seen)) eqn:Hseen.
      * apply union_names_keeps. by apply bool_decide_eq_true in Hseen.
      * apply union_names_keeps, elem_of_app. right. by left.
    + destruct (bool_decide (m ∈ seen)); by apply IH.
Qed.

Lemma foldl_union_names_keeps objs seen n :
  n ∈ seen →
  n ∈ foldl (fun seen df => pd.union_names seen (columns df)) seen objs.
Proof.
  revert seen. induction objs as [|df objs IH]; intros seen Hn; [exact Hn|].
  simpl. by apply IH, union_names_keeps.
Qed.

Lemma union_columns_covers objs df n :
  df ∈ objs → n ∈ columns df → n ∈ pd.union_columns objs.
Proof.
  unfold pd.union_columns. generalize (@nil string).
  induction objs as [|df' objs IH]; intros seen Hdf Hn.
  - by apply elem_of_nil in Hdf.
  - simpl. apply elem_of_cons in Hdf as [<- | Hdf].
    + by apply foldl_union_names_keeps, union_names_adds.
    + by apply IH.
Qed.



Lemma contribution_with_rows fs p :
  empty (contribution fs p) = false →
  columns (contribution fs p) ≠ [] ∧ data (contribution fs p) ≠ [].
Proof.
  intros Hfull. split.
  - intros Hcols. unfold empty in Hfull. by rewrite Hcols in Hfull.
  - unfold contribution in *. rewrite empty_parsed in Hfull.
    apply bool_decide_eq_false in Hfull. by rewrite data_parsed.
Qed.

Lemma contributions_with_rows fs folder df :
  df ∈ contributions fs folder → columns df ≠ [] ∧ data df ≠ [].
Proof.
  unfold contributions. rewrite list_elem_of_In, filter_In, in_map_iff.
  intros [(p & <- & _) Hfull]. apply contribution_with_rows.
  by apply negb_true_iff.
Qed.

(** X6.  Every call of [load_data] ends with one closing message, after the
    reports on the files, and the message tells which of two things was
    returned: the success message goes with a frame that has rows and
    columns and states its number of rows; an error or a warning goes with
    [pd.DataFrame()], the frame without rows and columns. *)
Theorem load_data_closing_message fs folder :
  ∃ df reports last,
    StreamlitApp.load_data fs folder = (reports ++ [last], Ok df) ∧
    if empty df
    then df = DataFrame_new ∧ ∃ msg, last = StError msg ∨ last = StWarning msg
    else last = StSuccess ("All data successfully loaded and combined. Total rows: "
                           +:+ pretty (length (data df))).
Proof.
  destruct (fs !! folder) as [[listing|lines|cause]|] eqn:Hnode;
    try (exists DataFrame_new, []; eexists;
         unfold StreamlitApp.load_data, is_dir; rewrite Hnode;
         split; [reflexivity|]; cbn [empty DataFrame_new columns length Nat.eqb orb];
         split; [reflexivity|]; eauto; fail).
  destruct (decide (discovered fs folder = [])) as [Hnil|Hfiles].
  { exists DataFrame_new, []. eexists.
    unfold StreamlitApp.load_data. rewrite (is_dir_true _ _ listing Hnode).
    fold (discovered fs folder). rewrite bool_decide_eq_true_2 by exact Hnil.
    split; [reflexivity|]. split; [reflexivity|]. eauto. }
  destruct (decide (contributions fs folder = [])) as [Hnone|Hsome].
  { exists DataFrame_new. eexists. eexists.
    rewrite (load_data_unusable _ _ listing) by done.
    split; [reflexivity|]. split; [reflexivity|]. unfold no_usable_data. eauto. }
  eexists. eexists. eexists.
  rewrite (load_data_combined _ _ listing) by done.
  split; [reflexivity|]. cbn [data].
  destruct (contributions fs folder) as [|df objs] eqn:Hobjs; [done|].
  destruct (contributions_with_rows fs folder df) as [Hcols Hrows];
    [rewrite Hobjs; by left|].
  assert (pd.union_columns (df :: objs) ≠ []) as Hunion.
  { destruct (columns df) as [|c cols] eqn:Hc; [done|].
    intros Hnil.
    assert (c ∈ pd.union_columns (df :: objs)) as Hin.
    { apply (union_columns_covers _ df); [by left|]. rewrite Hc. by left. }
    rewrite Hnil in Hin. by apply elem_of_nil in Hin. }
  unfold empty. cbn [columns index]. rewrite length_seq.
  destruct (pd.union_columns (df :: objs)) as [|c cols]; [done|].
  cbn [List.flat_map]. destruct (data df) as [|row rows]; [done|].
  reflexivity.
Qed.




(** ** What the load reads *)

Lemma load_file_same_node fs fs' p :
  fs' !! path_str p = fs !! path_str p →
  StreamlitApp.load_file fs' p = StreamlitApp.load_file fs p.
Proof.
  intros Hsame. rewrite !load_file_spec.
  unfold file_report, contribution, file_lines. by rewrite Hsame.
Qed.

Lemma load_each_same_nodes fs fs' files acc :
  Forall (fun p => fs' !! path_str p = fs !! path_str p) files →
  StreamlitApp.load_each fs' files acc = StreamlitApp.load_each fs files acc.
Proof.
  intros Hsame. revert acc.
  induction Hsame as [|p files Hp _ IH]; intros acc; [reflexivity|].
  cbn [StreamlitApp.load_each]. rewrite (load_file_same_node fs fs' p Hp).
  destruct (StreamlitApp.load_file fs p) as [out [df|e]]; [|reflexivity].
  rewrite !bind_ok. destruct (negb (empty df)); by rewrite IH.
Qed.

(** X9.  [load_data] reads the listing of the folder and the discovered
    files, and nothing else: two file systems that agree on these give the
    same messages and the same frame, whatever else differs between them
    (other folders, children without the CSV ending, the banner image). *)
Theorem load_data_reads_only_csv_files fs fs' folder :
  fs' !! folder = fs !! folder →
  (∀ p, p ∈ discovered fs folder → fs' !! path_str p = fs !! path_str p) →
  StreamlitApp.load_data fs' folder = StreamlitApp.load_data fs folder.
Proof.
  intros Hfolder Hfiles.
  assert (glob fs' folder "*.csv" = glob fs folder "*.csv") as Hglob.
  { unfold glob. by rewrite Hfolder. }
  unfold StreamlitApp.load_data, is_dir. rewrite Hfolder, Hglob.
  destruct (fs !! folder) as [[listing|?|?]|]; try reflexivity.
  cbn [negb]. destruct (bool_decide (glob fs folder "*.csv" = [])); [reflexivity|].
  rewrite (load_each_same_nodes fs fs'); [reflexivity|].
  apply Forall_forall. exact Hfiles.
Qed.

Lemma load_data_reads_only_csv_files_witness :
  StreamlitApp.load_data (<[ "data/notes.txt" := Garbled "binary" ]> fs_two) "data"
  = StreamlitApp.load_data fs_two "data".
Proof.
  apply (load_data_reads_only_csv_files fs_two
           (<[ "data/notes.txt" := Garbled "binary" ]> fs_two) "data").
  - reflexivity.
  - intros p Hp.
    assert (p ∈ [joinpath "data" "a.csv"; joinpath "data" "b.csv"]) as Hin
      by exact Hp.
    pick_child Hin; reflexivity.
Defined.

(** ** The cache over time *)

(** X12.  Once a folder has been loaded in a session, later calls return
    that frame and replay the stored messages whatever has become of the
    files since: a hit does not look at the file system, and nothing
    invalidates the entry. *)
Theorem load_data_cached_ignores_later_changes fs fs' folder (cache : Cache) :
  let first := StreamlitApp.load_data_cached fs folder cache in
  let later := StreamlitApp.load_data_cached fs' folder (snd first) in
  result (fst later) = result (fst first) ∧
  events (fst later)
  = match cache !! folder with
    | Some (_, replay) => replay
    | None => List.filter is_st (events (StreamlitApp.load_data fs folder))
    end ∧
  snd later = snd first.
Proof.
  unfold StreamlitApp.load_data_cached, cache_data. cbn zeta.
  destruct (cache !! folder) as [[df replay]|] eqn:Hhit.
  - cbn [fst snd]. by rewrite Hhit.
  - destruct (load_data_returns fs folder) as [df Hdf].
    destruct (StreamlitApp.load_data fs folder) as [out r].
    cbn [result snd] in Hdf. subst r. cbn [fst snd].
    by rewrite lookup_insert_eq.
Qed.



(** ** Errors in [data.py] *)

Lemma read_rows_error_quiet w lines :
  events (pd.read_rows pd.on_error w lines) = [].
Proof.
  induction lines as [|f rest IH]; [reflexivity|].
  cbn [pd.read_rows]. destruct (w <? length f); [reflexivity|].
  destruct (pd.read_rows pd.on_error w rest) as [out [rows|e]];
    cbn [events fst] in IH; subst out; reflexivity.
Qed.


Lemma data_load_file_quiet fs p : events (Data.load_file fs p) = [].
Proof.
  unfold Data.load_file, pd.read_csv.
  destruct (fs !! path_str p) as [[listing|lines|cause]|]; try reflexivity.
  destruct (List.filter _ lines) as [|header body]; [reflexivity|].
  pose proof (read_rows_error_quiet (length (pd.split_fields "," header))
                (map (pd.split_fields ",") body)) as Hquiet.
  destruct (pd.read_rows _ _ _) as [out [rows|e]];
    cbn [events fst] in Hquiet; subst out; reflexivity.
Qed.

Lemma comprehension_quiet {A B} (f : A → Py B) xs :
  (∀ x, events (f x) = []) → events (comprehension f xs) = [].
Proof.
  intros Hquiet. induction xs as [|x xs IH]; [reflexivity|].
  cbn [comprehension]. specialize (Hquiet x).
  destruct (f x) as [out [y|e]]; cbn [events fst] in Hquiet; subst out;
    [|reflexivity].
  rewrite bind_quiet.
  destruct (comprehension f xs) as [out [ys|e]]; cbn [events fst] in IH;
    subst out; reflexivity.
Qed.

(** X13.  [data.py] tells the user nothing: whatever the folder holds, its
    [load_data] emits no Streamlit message and no warning.  What goes wrong
    shows only as the exception it raises. *)
Theorem data_load_data_is_silent fs folder :
  events (Data.load_data fs folder) = [].
Proof.
  unfold Data.load_data, iterdir.
  destruct (fs !! folder) as [[listing|lines|cause]|]; try reflexivity.
  rewrite bind_ret_l. fold (data_discovered folder listing).
  pose proof (comprehension_quiet (Data.load_file fs)
                (data_discovered folder listing) (data_load_file_quiet fs))
    as Hquiet.
  destruct (comprehension _ _) as [out [frames|e]];
    cbn [events fst] in Hquiet; subst out; [|reflexivity].
  rewrite bind_quiet. by destruct frames.
Qed.



Lemma comprehension_stops {A B} (f : A → Py B) good x rest e :
  Forall (fun y => ∃ b, f y = ([], Ok b)) good →
  f x = ([], Raised e) →
  comprehension f (good ++ x :: rest) = ([], Raised e).
Proof.
  intros Hgood Hbad. induction Hgood as [|y good [b Hy] _ IH].
  - cbn [app comprehension]. by rewrite Hbad.
  - cbn [app comprehension]. by rewrite Hy, bind_quiet, IH.
Qed.

(** X15.  In [data.py] one bad file is fatal to the folder: [load_data]
    raises the exception of the first file, in listing order, that
    [load_file] fails on, although the files before it were read and the
    files after it may be sound. *)
Theorem data_load_data_fails_fast fs folder listing good p rest e :
  fs !! folder = Some (Dir listing) →
  data_discovered folder listing = good ++ p :: rest →
  Forall (fun q => ∃ df, result (Data.load_file fs q) = Ok df) good →
  result (Data.load_file fs p) = Raised e →
  Data.load_data fs folder = ([], Raised e).
Proof.
  intros Hdir Hfiles Hgood Hbad. unfold Data.load_data, iterdir.
  rewrite Hdir, bind_ret_l. fold (data_discovered folder listing).
  rewrite Hfiles, (comprehension_stops _ _ _ _ e); [reflexivity| |].
  - eapply Forall_impl; [exact Hgood|]. intros q [df Hq]. exists df.
    pose proof (data_load_file_quiet fs q) as Hquiet.
    destruct (Data.load_file fs q) as [out r].
    cbn [events result fst snd] in *. by subst.
  - pose proof (data_load_file_quiet fs p) as Hquiet.
    destruct (Data.load_file fs p) as [out r].
    cbn [events result fst snd] in *. by subst.
Qed.

Lemma data_load_data_fails_fast_witness :
  Data.load_data fs_commas "data" = ([], Raised (ParserError 2 3)).
Proof.
  apply (data_load_data_fails_fast fs_commas "data" ["a.csv"; "b.csv"; "c.csv"]
           [joinpath "data" "a.csv"] (joinpath "data" "b.csv")
           [joinpath "data" "c.csv"]).
  - reflexivity.
  - reflexivity.
  - repeat constructor. by eexists.
  - reflexivity.
Defined.

(** ** The script around the query engine *)


(** X17.  In a run of the script the query engine is called when, and only
    when, the loaded frame is not empty, the question is not empty and a
    non-empty API key is in the secrets; it is then called once, with the
    whole loaded frame (not the preview) and the question as typed. *)
Theorem run_calls_engine_when_ready fs chat query key (cache : Cache) df :
  st_only cache →
  (∀ d q, Forall (fun ev => is_engine_call ev = false) (events (chat d q))) →
  result (fst (StreamlitApp.load_data_cached fs StreamlitApp.DATA_FOLDER cache))
  = Ok df →
  List.filter is_engine_call
    (events (fst (StreamlitApp.run fs chat query key cache)))
  = if negb (empty df) && StreamlitApp.truthy query && has_key key
    then [EngineChat df query] else [].
Proof.
  intros Hcache Hchat Hload.
  pose proof (load_data_cached_no_engine_call fs StreamlitApp.DATA_FOLDER cache Hcache)
    as Hquiet.
  apply filter_none in Hquiet.
  specialize (Hchat df query). apply filter_none in Hchat.
  unfold StreamlitApp.run.
  destruct (StreamlitApp.load_data_cached fs StreamlitApp.DATA_FOLDER cache)
    as [[out r] cache'].
  cbn [fst snd result events] in *. subst r.
  destruct (chat df query) as [cout [ans|ex]] eqn:Hans.
  all: cbn [fst snd result events] in Hchat.
  all: destruct (bool_decide (is_Some (fs !! StreamlitApp.BANNER_IMAGE_PATH))).
  all: destruct (empty df) eqn:Hempty.
  all: destruct query as [|c query]; destruct key as [[|k key]|].
  all: cbn -[String.append]; rewrite ?Hempty; cbn -[String.append].
  all: try rewrite Hans; cbn -[String.append].
  all: try (destruct ans); try (destruct (is_Exception ex)); cbn -[String.append].
  all: rewrite ?List.filter_app, ?Hquiet, ?Hchat; cbn -[String.append].
  all: rewrite ?List.filter_app, ?Hquiet, ?Hchat; cbn -[String.append].
  all: reflexivity.
Qed.

Lemma run_calls_engine_when_ready_witness :
  List.filter is_engine_call
    (events (fst (StreamlitApp.run fs_app
                    (fun _ _ => ret (StreamlitApp.AnswerText "4"))
                    "How many rows are there?" (Some "sk-test") ∅)))
  = [EngineChat sales "How many rows are there?"].
Proof.
  apply (run_calls_engine_when_ready fs_app
           (fun _ _ => ret (StreamlitApp.AnswerText "4"))
           "How many rows are there?" (Some "sk-test") ∅ sales).
  - apply st_only_empty.
  - intros d q. constructor.
  - reflexivity.
Defined.



(** X19.  An exception of the query engine does not end the run and is not
    hidden: right after what the engine showed, the script shows an error
    with the text of the exception and then the exception itself, and goes
    on to the end of the page. *)
Theorem run_shows_engine_failure fs chat query key (cache : Cache) df cout e :
  result (fst (StreamlitApp.load_data_cached fs StreamlitApp.DATA_FOLDER cache))
  = Ok df →
  empty df = false →
  StreamlitApp.truthy query = true →
  has_key key = true →
  chat df query = (cout, Raised e) →
  is_Exception e = true →
  result (fst (StreamlitApp.run fs chat query key cache)) = Ok tt ∧
  events (fst (StreamlitApp.run fs chat query key cache))
  = preamble fs
      ++ events (fst (StreamlitApp.load_data_cached fs
                        StreamlitApp.DATA_FOLDER cache))
      ++ page_body df
      ++ EngineChat df query
         :: cout
            ++ StError ("An error occurred while processing your query: "
                        +:+ exn_str e)
               :: StException e :: footer.
Proof.
  intros Hload Hfull Hquery Hkey Hans Hexn.
  unfold StreamlitApp.run, footer, preamble, page_body.
  destruct (StreamlitApp.load_data_cached fs StreamlitApp.DATA_FOLDER cache)
    as [[out r] cache'].
  cbn [fst snd result events] in *. subst r.
  destruct query as [|c query]; [discriminate|].
  destruct key as [[|k key]|]; try discriminate.
  destruct (bool_decide (is_Some (fs !! StreamlitApp.BANNER_IMAGE_PATH))).
  all: cbn -[String.append]; rewrite ?Hfull; cbn -[String.append].
  all: rewrite Hans; cbn -[String.append]; rewrite Hexn; cbn -[String.append].
  all: split; [reflexivity|].
  all: by rewrite <- !app_assoc.
Qed.

Lemma run_shows_engine_failure_witness :
  let out :=
    fst (StreamlitApp.run fs_app
           (fun _ _ => raise (ValueError "No code found in the response"))
           "Plot qty by item" (Some "sk-test") ∅) in
  result out = Ok tt ∧
  events out
  = preamble fs_app
      ++ events (fst (StreamlitApp.load_data_cached fs_app
                        StreamlitApp.DATA_FOLDER ∅))
      ++ page_body sales
      ++ EngineChat sales "Plot qty by item"
         :: []
            ++ StError ("An error occurred while processing your query: "
                        +:+ exn_str (ValueError "No code found in the response"))
               :: StException (ValueError "No code found in the response")
               :: footer.
Proof.
  apply (run_shows_engine_failure fs_app
           (fun _ _ => raise (ValueError "No code found in the response"))
           "Plot qty by item" (Some "sk-test") ∅ sales []
           (ValueError "No code found in the response")); reflexivity.
Defined.

(** ** How the load is put together from its files *)

(** X10.  In a folder with CSV files, what [load_data] shows is what
    [load_file] shows for each discovered file, file after file in discovery
    order, and then one closing Streamlit message. *)
Theorem load_data_reports_in_discovery_order fs folder listing :
  fs !! folder = Some (Dir listing) →
  discovered fs folder ≠ [] →
  ∃ last,
    events (StreamlitApp.load_data fs folder)
    = List.flat_map (fun p => events (StreamlitApp.load_file fs p))
        (discovered fs folder) ++ [last] ∧
    is_st last = true.
Proof.
  intros Hdir Hfiles.
  assert (List.flat_map (fun p => events (StreamlitApp.load_file fs p))
            (discovered fs folder)
          = List.flat_map (file_report fs) (discovered fs folder)) as ->.
  { apply flat_map_ext. intros p. by rewrite load_file_spec. }
  destruct (decide (contributions fs folder = [])) as [Hnone|Hsome].
  - rewrite (load_data_unusable _ _ listing) by done. by eexists.
  - rewrite (load_data_combined _ _ listing) by done. by eexists.
Qed.

Lemma load_data_reports_in_discovery_order_witness :
  ∃ last,
    events (StreamlitApp.load_data fs_unusable "data")
    = List.flat_map (fun p => events (StreamlitApp.load_file fs_unusable p))
        (discovered fs_unusable "data") ++ [last] ∧
    is_st last = true.
Proof.
  apply (load_data_reports_in_discovery_order fs_unusable "data"
           ["e.csv"; "gone.csv"; "g.csv"; "d.csv"; "h.csv"]).
  - reflexivity.
  - discriminate.
Defined.




